(** * Blueprint Metrics CDK stack: a shallow embedding

    The repository consists of an entry point (which reads four values
    from the process environment and calls the stack constructor) and
    the stack constructor (which declares a secret, an execution role, a
    Lambda function with its bundling script, a function URL, a weekly
    rule and four outputs).  Both are embedded below as executable
    definitions; the theorems at the end of the file are stated about
    them. *)

From Stdlib Require Import String Ascii List NArith Bool.
From stdpp Require Import base option list strings gmap fin_maps.
Import ListNotations.

Local Open Scope string_scope.
Local Open Scope list_scope.

(** ** JavaScript expression forms used by the sources *)

Module Js.

(** Truthiness of a string: every string except the empty one. *)
Definition truthy (s : string) : bool :=
  match s with
  | EmptyString => false
  | String _ _ => true
  end.

(** [a || b] where [a] is a string or [undefined] and [b] a string. *)
Definition or_else (a : option string) (b : string) : string :=
  match a with
  | Some s => if truthy s then s else b
  | None => b
  end.

(** [o?.f]: [undefined] when [o] is, the field otherwise. *)
Definition opt_chain {A B : Type} (o : option A) (f : A -> B) : option B :=
  match o with
  | Some x => Some (f x)
  | None => None
  end.

End Js.

Notation "a '|||' b" := (Js.or_else a b) (at level 50, left associativity).

(** ** The entry point *)

(** [BlueprintMetricsCdkStackProps], without the inherited optional
    [cdk.StackProps] members, none of which the entry point sets. *)
Record BlueprintMetricsCdkStackProps : Type := mkProps {
  githubToken : string;
  discordWebhookUrl : string;
  googleWorkloadIdentityAudience : string;
  googleWorkloadIdentityServiceAccount : string
}.

(** [process.env]: a finite map from variable names to strings; reading
    a variable that is not set yields [undefined]. *)
Abbreviation ProcessEnv := (gmap string string).


(** The object literal passed to [new BlueprintMetricsCdkStack]. *)
Definition entry_props (env : ProcessEnv) : BlueprintMetricsCdkStackProps :=
  {| discordWebhookUrl := env !! "DISCORD_WEBHOOK_URL" ||| "";
     githubToken := env !! "GITHUB_TOKEN" ||| "";
     googleWorkloadIdentityAudience :=
       env !! "GOOGLE_WORKLOADIDENTITY_AUDIENCE" ||| "";
     googleWorkloadIdentityServiceAccount :=
       env !! "GOOGLE_WORKLOADIDENTITY_SERVICEACCOUNT" ||| "" |}.

(** ** The construct library, as far as the stack uses it *)

(** A construct is addressed by its path of identifiers below the stack. *)
Abbreviation Path := (list string).

Module cdk.

(** The attributes of a construct that the stack reads back from it:
    its name, its ARN, its URL. *)
Inductive Attr : Type := NameAttr | ArnAttr | UrlAttr.

(** A string-typed value in the constructor: a string written in the
    source or passed in, kept as it is, or the token that reading an
    attribute of a construct yields, which stands for a reference to
    that construct.  What the library makes of the text of a [Str] when
    the app is synthesized is outside the constructor. *)
Inductive Value : Type :=
| Str (s : string)
| Token (owner : Path) (a : Attr).

(** Truthiness: a token is spelled as a marker, which is never the
    empty string. *)
Definition truthy (v : Value) : bool :=
  match v with
  | Str s => Js.truthy s
  | Token _ _ => true
  end.

(** [a || b] where [a] is a value or [undefined]. *)
Definition or_else (a : option Value) (b : Value) : Value :=
  match a with
  | Some v => if truthy v then v else b
  | None => b
  end.

Inductive TimeUnit : Type := Milliseconds | Seconds | Minutes | Hours | Days.

Record Duration : Type := mkDuration { amount : N; unit : TimeUnit }.

Module Duration.
Definition minutes (n : N) : Duration := mkDuration n Minutes.
End Duration.

Record CfnOutput : Type := mkCfnOutput { value : Value }.

(** An object literal with string-valued members: later members
    overwrite earlier ones of the same name. *)
Definition object_literal (members : list (string * Value))
  : gmap string Value :=
  fold_left (fun m kv => <[fst kv := snd kv]> m) members ∅.

End cdk.

Module secretsmanager.

Record Secret : Type := mkSecret {
  secretName : string;
  description : string
}.

(** [secret.secretArn] *)
Definition secretArn (secret : Path) : cdk.Value := cdk.Token secret cdk.ArnAttr.

End secretsmanager.

Module iam.

Inductive ServicePrincipal : Type := mkServicePrincipal (service : string).

Inductive ManagedPolicy : Type := AwsManagedPolicy (managedPolicyName : string).

Module ManagedPolicy.
Definition fromAwsManagedPolicyName (name : string) : ManagedPolicy :=
  AwsManagedPolicy name.
End ManagedPolicy.

Record PolicyStatement : Type := mkPolicyStatement {
  actions : list string;
  resources : list cdk.Value
}.

(** A role: the properties it was created with, and the statements
    attached to it afterwards, oldest first.  [roleName] is the property
    given at creation; reading [role.roleName] from the construct is
    [roleNameToken] below. *)
Record Role : Type := mkRole {
  assumedBy : ServicePrincipal;
  roleName : string;
  managedPolicies : list ManagedPolicy;
  statements : list PolicyStatement
}.

Definition addStatement (st : PolicyStatement) (r : Role) : Role :=
  {| assumedBy := assumedBy r;
     roleName := roleName r;
     managedPolicies := managedPolicies r;
     statements := statements r ++ [st] |}.

(** [role.roleName], read from the construct: a token. *)
Definition roleNameToken (role : Path) : cdk.Value :=
  cdk.Token role cdk.NameAttr.

End iam.

Module lambda.

Inductive Runtime : Type := PYTHON_3_12 | PYTHON_3_13 | PYTHON_3_14.

Inductive DockerImage : Type := BundlingImageOf (r : Runtime).

Definition bundlingImage (r : Runtime) : DockerImage := BundlingImageOf r.

Record BundlingOptions : Type := mkBundling {
  image : DockerImage;
  command : list string
}.

Record Code : Type := mkAsset {
  assetPath : string;
  bundling : BundlingOptions
}.

Module Code.
Definition fromAsset (path : string) (b : BundlingOptions) : Code :=
  mkAsset path b.
End Code.

(** A function, with the properties the stack sets.  [functionName] is
    the property given at creation; reading [fn.functionName] from the
    construct is [functionNameToken] below.  [role] is a
    reference to a role construct; the interface declares it optional.
    [environment] holds the members of the object literal in the order
    they are written; [cdk.object_literal] is the map they denote. *)
Record Function : Type := mkFunction {
  runtime : Runtime;
  handler : string;
  role : option Path;
  functionName : string;
  code : Code;
  timeout : cdk.Duration;
  memorySize : N;
  description : string;
  environment : list (string * cdk.Value)
}.

Inductive FunctionUrlAuthType : Type := AWS_IAM | NONE.

Inductive HttpMethod : Type :=
  GET | PUT | HEAD | POST | DELETE | PATCH | OPTIONS | ALL.

Record FunctionUrlCorsOptions : Type := mkCors {
  allowedOrigins : list string;
  allowedMethods : list HttpMethod
}.

Record FunctionUrlOptions : Type := mkUrlOptions {
  authType : FunctionUrlAuthType;
  cors : FunctionUrlCorsOptions
}.

(** A function URL: the function it invokes and its options. *)
Record FunctionUrl : Type := mkFunctionUrl {
  function : Path;
  options : FunctionUrlOptions
}.

(** [fnUrl.url] *)
Definition url (fnUrl : Path) : cdk.Value := cdk.Token fnUrl cdk.UrlAttr.

(** [fn.functionName], read from the construct: a token. *)
Definition functionNameToken (fn : Path) : cdk.Value :=
  cdk.Token fn cdk.NameAttr.

End lambda.

Module events.

Record CronOptions : Type := mkCron {
  minute : option string;
  hour : option string;
  day : option string;
  month : option string;
  year : option string;
  weekDay : option string
}.

Inductive Schedule : Type := CronSchedule (o : CronOptions).

Module Schedule.
Definition cron (o : CronOptions) : Schedule := CronSchedule o.
End Schedule.

Inductive RuleTarget : Type := LambdaFunction (fn : Path).

Record Rule : Type := mkRule {
  schedule : Schedule;
  targets : list RuleTarget
}.

End events.

(** ** The construct tree and the synthesis monad *)

Inductive Construct : Type :=
| SecretC (s : secretsmanager.Secret)
| RoleC (r : iam.Role)
| FunctionC (f : lambda.Function)
| FunctionUrlC (u : lambda.FunctionUrl)
| RuleC (r : events.Rule)
| OutputC (o : cdk.CfnOutput).

(** The constructs declared so far, in order of declaration. *)
Abbreviation Tree := (list (Path * Construct)).

Inductive SynthError : Type :=
| DuplicateConstruct (p : Path)
| NoSuchRole (p : Path)
| NoSuchFunction (p : Path).

(** Declaring a construct and mutating one both act on the one tree
    that the constructor's [this] stands for; a declaration under an
    identifier already in use throws. *)
Definition Synth (A : Type) : Type := Tree -> SynthError + (A * Tree).

Definition ret {A : Type} (a : A) : Synth A := fun t => inr (a, t).

Definition bind {A B : Type} (m : Synth A) (k : A -> Synth B) : Synth B :=
  fun t =>
    match m t with
    | inl e => inl e
    | inr (a, t') => k a t'
    end.

Declare Scope synth_scope.
Delimit Scope synth_scope with synth.
Notation "'let*' x ':=' m 'in' k" := (bind m (fun x => k))
  (at level 10, x name, m at level 100, k at level 200) : synth_scope.
Notation "m ';;' k" := (bind m (fun _ => k))
  (at level 100, k at level 200, right associativity) : synth_scope.

Definition find_node (p : Path) (t : Tree) : option Construct :=
  snd <$> List.find (fun e => bool_decide (fst e = p)) t.

Fixpoint replace_node (p : Path) (c : Construct) (t : Tree) : Tree :=
  match t with
  | [] => []
  | e :: t' =>
      if bool_decide (fst e = p) then (p, c) :: t'
      else e :: replace_node p c t'
  end.

(** [new K(scope, id, ...)]: the new construct becomes the last child. *)
Definition add_child (p : Path) (c : Construct) : Synth Path :=
  fun t =>
    match find_node p t with
    | Some _ => inl (DuplicateConstruct p)
    | None => inr (p, t ++ [(p, c)])
    end.

Definition get_role (p : Path) : Synth iam.Role :=
  fun t =>
    match find_node p t with
    | Some (RoleC r) => inr (r, t)
    | _ => inl (NoSuchRole p)
    end.

Definition get_function (p : Path) : Synth lambda.Function :=
  fun t =>
    match find_node p t with
    | Some (FunctionC f) => inr (f, t)
    | _ => inl (NoSuchFunction p)
    end.

Local Open Scope synth_scope.

(** [role.addToPolicy(statement)]: the role object itself is updated. *)
Definition addToPolicy (role : Path) (st : iam.PolicyStatement) : Synth unit :=
  let* r := get_role role in
  fun t => inr (tt, replace_node role (RoleC (iam.addStatement st r)) t).

(** [fn.role]: the role object the function was created with, if any. *)
Definition function_role (fn : Path) : Synth (option Path) :=
  let* f := get_function fn in
  match lambda.role f with
  | Some r => get_role r;; ret (Some r)
  | None => ret None
  end.

(** [secret.grantRead(fn)]: the permission to read the secret is added to
    the policy of the grantee's principal, which for a function is its
    role; a function without a role reference has no policy to add to. *)
Definition grantRead (secret : Path) (fn : Path) : Synth unit :=
  let* f := get_function fn in
  match lambda.role f with
  | Some r =>
      addToPolicy r
        {| iam.actions := ["secretsmanager:GetSecretValue";
                           "secretsmanager:DescribeSecret"];
           iam.resources := [secretsmanager.secretArn secret] |}
  | None => ret tt
  end.

(** [fn.addFunctionUrl(options)]: the URL is declared below the function. *)
Definition addFunctionUrl (fn : Path) (o : lambda.FunctionUrlOptions)
  : Synth Path :=
  get_function fn;;
  add_child (fn ++ ["FunctionUrl"])
    (FunctionUrlC {| lambda.function := fn; lambda.options := o |}).

(** ** The stack *)

(** The lines joined into the script that the bundling container runs. *)
Definition bundling_steps : list string :=
  [ "set -euo pipefail";
    "pip install -r requirements.txt --no-cache-dir --platform manylinux2014_x86_64 --only-binary=:all: -t /asset-output";
    "cp -au *.py requirements.txt /asset-output";
    "find /asset-output -name '__pycache__' -prune -exec rm -rf {} +";
    "find /asset-output -name '*.pyc' -delete";
    "find /asset-output -type d \( -name 'tests' -o -name 'test' \) -prune -exec rm -rf {} + || true" ].

Definition bundling_script : string := String.concat " && " bundling_steps.

Definition bundling_command : list string := ["bash"; "-c"; bundling_script].

(** The constructor of [BlueprintMetricsCdkStack], statement by statement.
    The asset directory is given relative to the directory of the stack's
    source file. *)
Definition BlueprintMetricsCdkStack (props : BlueprintMetricsCdkStackProps)
  : Synth unit :=
  let* metricsConfigSecret :=
    add_child ["MetricsConfigSecret"]
      (SecretC {| secretsmanager.secretName := "blueprint-metrics-config";
                  secretsmanager.description :=
                    "Configuration for Blueprint Metrics Lambda" |}) in
  let* executionRole :=
    add_child ["BlueprintMetricsExecutionRole"]
      (RoleC {| iam.assumedBy := iam.mkServicePrincipal "lambda.amazonaws.com";
                iam.roleName := "bp-metrics-role";
                iam.managedPolicies :=
                  [ iam.ManagedPolicy.fromAwsManagedPolicyName
                      "service-role/AWSLambdaBasicExecutionRole" ];
                iam.statements := [] |}) in
  addToPolicy executionRole
    {| iam.actions := ["sts:GetCallerIdentity"];
       iam.resources := [cdk.Str "*"] |};;
  let* fn :=
    add_child ["BlueprintMetricsFunction"]
      (FunctionC
         {| lambda.runtime := lambda.PYTHON_3_14;
            lambda.handler := "main.handler";
            lambda.role := Some executionRole;
            lambda.functionName := "bp-metrics-fn";
            lambda.code :=
              lambda.Code.fromAsset "../lambda"
                {| lambda.image := lambda.bundlingImage lambda.PYTHON_3_14;
                   lambda.command := bundling_command |};
            lambda.timeout := cdk.Duration.minutes 5;
            lambda.memorySize := 1024;
            lambda.description := "Lambda function for Blueprint Metrics";
            lambda.environment :=
              [ ("PROD", cdk.Str "true");
                ("METRICS_CONFIG_SECRET_ARN",
                 secretsmanager.secretArn metricsConfigSecret);
                ("DISCORD_WEBHOOK_URL", cdk.Str (discordWebhookUrl props));
                ("GITHUB_TOKEN", cdk.Str (githubToken props));
                ("GOOGLE_WORKLOADIDENTITY_AUDIENCE",
                 cdk.Str (googleWorkloadIdentityAudience props));
                ("GOOGLE_WORKLOADIDENTITY_SERVICEACCOUNT",
                 cdk.Str (googleWorkloadIdentityServiceAccount props)) ] |}) in
  grantRead metricsConfigSecret fn;;
  let* fnUrl :=
    addFunctionUrl fn
      {| lambda.authType := lambda.NONE;
         lambda.cors := {| lambda.allowedOrigins := ["*"];
                           lambda.allowedMethods := [lambda.POST] |} |} in
  let scheduleRule :=
    events.Schedule.cron
      {| events.minute := Some "0";
         events.hour := Some "19";
         events.day := None;
         events.month := None;
         events.year := None;
         events.weekDay := Some "MON" |} in
  add_child ["WeeklyMetricsRule"]
    (RuleC {| events.schedule := scheduleRule;
              events.targets := [events.LambdaFunction fn] |});;
  add_child ["LambdaFunctionName"]
    (OutputC {| cdk.value := lambda.functionNameToken fn |});;
  let* fn_role := function_role fn in
  add_child ["LambdaExecutionRoleName"]
    (OutputC {| cdk.value :=
                  cdk.or_else (Js.opt_chain fn_role iam.roleNameToken)
                              (cdk.Str "") |});;
  add_child ["MetricsConfigSecretArn"]
    (OutputC {| cdk.value := secretsmanager.secretArn metricsConfigSecret |});;
  add_child ["LambdaFunctionUrl"]
    (OutputC {| cdk.value := lambda.url fnUrl |});;
  ret tt.

(** [new BlueprintMetricsCdkStack(app, id, props)] run on a fresh scope:
    the tree of the stack, or the error thrown. *)
Definition synth (props : BlueprintMetricsCdkStackProps) : SynthError + Tree :=
  match BlueprintMetricsCdkStack props [] with
  | inl e => inl e
  | inr (_, t) => inr t
  end.


(** ** The shell's reading of the bundling script

    [bash -c script] with a script that is one and-or list of simple
    commands: the text is cut at the [&&] and [||] operators that stand
    outside single quotes, and the list is run from left to right, both
    operators having the same precedence. *)

Module Shell.

Inductive Connective : Type := AndIf | OrIf.

(** An and-or list: its first command and the connected ones. *)
Abbreviation AndOrList := (string * list (Connective * string))%type.

Definition is_char (c d : ascii) : bool := Ascii.eqb c d.

(** [scan quoted s]: the text up to the next operator, and the rest of
    the list.  A backslash outside quotes protects the next character. *)
Fixpoint scan (quoted : bool) (s : string) : AndOrList :=
  match s with
  | EmptyString => (EmptyString, [])
  | String c s' =>
      if quoted then
        let '(cmd, l) := scan (negb (is_char c "'")) s' in (String c cmd, l)
      else
        match s' with
        | String d s'' =>
            if is_char c "&" && is_char d "&" then
              let '(cmd, l) := scan false s'' in (EmptyString, (AndIf, cmd) :: l)
            else if is_char c "|" && is_char d "|" then
              let '(cmd, l) := scan false s'' in (EmptyString, (OrIf, cmd) :: l)
            else if is_char c "\" then
              let '(cmd, l) := scan false s'' in (String c (String d cmd), l)
            else
              let '(cmd, l) := scan (is_char c "'") s' in (String c cmd, l)
        | EmptyString => (String c EmptyString, [])
        end
  end.

Fixpoint trim_left (s : string) : string :=
  match s with
  | String c s' => if is_char c " " then trim_left s' else s
  | EmptyString => EmptyString
  end.

Fixpoint trim_right (s : string) : string :=
  match s with
  | String c s' =>
      match trim_right s' with
      | EmptyString => if is_char c " " then EmptyString else String c EmptyString
      | r => String c r
      end
  | EmptyString => EmptyString
  end.

Definition trim (s : string) : string := trim_right (trim_left s).

Definition parse (script : string) : AndOrList :=
  let '(cmd, l) := scan false script in
  (trim cmd, map (fun e => (fst e, trim (snd e))) l).

(** Whether an external command exits with status 0. *)
Abbreviation Outcome := (string -> bool).

(** The builtins [true] and [set] succeed; any other command is external. *)
Definition exec (o : Outcome) (cmd : string) : bool :=
  if bool_decide (cmd = "true") then true
  else if String.prefix "set " cmd then true
  else o cmd.

Record Run : Type := mkRun {
  executed : list string;   (* the commands run, in order *)
  exit_ok : bool            (* whether the exit status is 0 *)
}.

(** The connected commands, given the status of what precedes them:
    [&& c] runs [c] after a success, [|| c] after a failure; a command
    that is skipped leaves the status as it is. *)
Fixpoint run_rest (o : Outcome) (status : bool) (l : list (Connective * string))
  : Run :=
  match l with
  | [] => mkRun [] status
  | (op, c) :: l' =>
      let runs := match op with AndIf => status | OrIf => negb status end in
      if runs then
        let r := run_rest o (exec o c) l' in
        mkRun (c :: executed r) (exit_ok r)
      else run_rest o status l'
  end.

Definition run_list (o : Outcome) (l : AndOrList) : Run :=
  let r := run_rest o (exec o (fst l)) (snd l) in
  mkRun (fst l :: executed r) (exit_ok r).

(** The script is a single list, so its status is the shell's exit
    status; [errexit] never applies to a command of an and-or list other
    than the last one, and after the last one the shell exits anyway. *)
Definition bash_c (o : Outcome) (script : string) : Run :=
  run_list o (parse script).

(** The first command of a piece of script. *)
Definition leading_command (text : string) : string := fst (parse text).

End Shell.

(** ** Observations on the assembled tree *)

Definition as_secret (c : Construct) : option secretsmanager.Secret :=
  match c with SecretC s => Some s | _ => None end.

Definition as_role (c : Construct) : option iam.Role :=
  match c with RoleC r => Some r | _ => None end.

Definition as_function (c : Construct) : option lambda.Function :=
  match c with FunctionC f => Some f | _ => None end.

Definition as_function_url (c : Construct) : option lambda.FunctionUrl :=
  match c with FunctionUrlC u => Some u | _ => None end.

Definition as_rule (c : Construct) : option events.Rule :=
  match c with RuleC r => Some r | _ => None end.

Definition as_output (c : Construct) : option cdk.CfnOutput :=
  match c with OutputC o => Some o | _ => None end.

(** The constructs of one kind, in order of declaration. *)
Definition select {A : Type} (proj : Construct -> option A) (t : Tree)
  : list (Path * A) :=
  omap (fun e => pair (fst e) <$> proj (snd e)) t.

Definition secrets : Tree -> list (Path * secretsmanager.Secret) := select as_secret.
Definition roles : Tree -> list (Path * iam.Role) := select as_role.
Definition functions : Tree -> list (Path * lambda.Function) := select as_function.
Definition function_urls : Tree -> list (Path * lambda.FunctionUrl) :=
  select as_function_url.
Definition rules : Tree -> list (Path * events.Rule) := select as_rule.
Definition outputs : Tree -> list (Path * cdk.CfnOutput) := select as_output.

(** The value a field of the configuration record is specified to have. *)
Definition env_or_empty (env : ProcessEnv) (name : string) : string :=
  match env !! name with
  | Some v => v
  | None => ""
  end.

(** The execution role as the specification words it: one managed
    policy, and the statement on [sts:GetCallerIdentity] as the only
    statement. *)
Definition role_with_single_statement (props : BlueprintMetricsCdkStackProps)
  : Prop :=
  exists (t : Tree) (p : Path) (r : iam.Role),
    synth props = inr t
    /\ roles t = [(p, r)]
    /\ iam.managedPolicies r =
       [iam.AwsManagedPolicy "service-role/AWSLambdaBasicExecutionRole"]
    /\ iam.statements r =
       [ {| iam.actions := ["sts:GetCallerIdentity"];
            iam.resources := [cdk.Str "*"] |} ].

(** The first command of each line of the bundling script. *)
Definition step_commands : list string :=
  map Shell.leading_command bundling_steps.

(** Step [i] fails and every step before it succeeds. *)
Definition first_failure (o : Shell.Outcome) (i : nat) : bool :=
  forallb (Shell.exec o) (take i step_commands)
  && match step_commands !! i with
     | Some c => negb (Shell.exec o c)
     | None => false
     end.

(** None of the steps after step [i] is run. *)
Definition later_steps_skipped (o : Shell.Outcome) (i : nat) : Prop :=
  forall c, c ∈ drop (S i) step_commands ->
            c ∉ Shell.executed (Shell.bash_c o bundling_script).

Definition last_step : nat := pred (length bundling_steps).

(** Fail-fast as the specification words it: the first failing step
    stops the later ones and the script does not report success. *)
Definition fail_fast : Prop :=
  forall (o : Shell.Outcome) (i : nat),
    first_failure o i = true ->
    later_steps_skipped o i
    /\ Shell.exit_ok (Shell.bash_c o bundling_script) = false.

(** The outcome in which [cmd] fails and every other command succeeds. *)
Definition fails_only_at (cmd : string) : Shell.Outcome :=
  fun c => negb (bool_decide (c = cmd)).

(** A chain [&& c1 && ... && cn], and the closing [|| true]. *)
Definition and_chain (cs : list string) : list (Shell.Connective * string) :=
  map (pair Shell.AndIf) cs.

Definition or_true : list (Shell.Connective * string) := [(Shell.OrIf, "true")].

(** ** Further observations *)



(** A construct with the environment of a function left out. *)
Definition without_environment (c : Construct) : Construct :=
  match c with
  | FunctionC f =>
      FunctionC {| lambda.runtime := lambda.runtime f;
                   lambda.handler := lambda.handler f;
                   lambda.role := lambda.role f;
                   lambda.functionName := lambda.functionName f;
                   lambda.code := lambda.code f;
                   lambda.timeout := lambda.timeout f;
                   lambda.memorySize := lambda.memorySize f;
                   lambda.description := lambda.description f;
                   lambda.environment := [] |}
  | _ => c
  end.

Definition tree_without_environment (t : Tree) : Tree :=
  map (fun e => (fst e, without_environment (snd e))) t.

(** The role-name output as the specification words it: the literal
    name of the role. *)
Definition role_name_output_is_literal (props : BlueprintMetricsCdkStackProps)
  : Prop :=
  exists t : Tree,
    synth props = inr t
    /\ find_node ["LambdaExecutionRoleName"] t =
       Some (OutputC {| cdk.value := cdk.Str "bp-metrics-role" |}).

(** ** Lemmas on the JavaScript forms *)

Lemma or_else_empty (a : option string) :
  a ||| "" = match a with Some v => v | None => "" end.
Proof. destruct a as [[|c s]|]; reflexivity. Qed.

Lemma or_else_truthy (s d : string) :
  Js.truthy s = true -> Some s ||| d = s.
Proof. unfold Js.or_else. intros ->. reflexivity. Qed.

Lemma or_else_undefined (d : string) : None ||| d = d.
Proof. reflexivity. Qed.


(** ** Lemmas on the construct tree *)

Lemma find_node_app_fresh (p q : Path) (c : Construct) (t : Tree) :
  find_node p (t ++ [(q, c)]) =
  match find_node p t with
  | Some x => Some x
  | None => if bool_decide (q = p) then Some c else None
  end.
Proof.
  unfold find_node. induction t as [|[q' c'] t IH]; simpl.
  - destruct (bool_decide (q = p)); reflexivity.
  - destruct (bool_decide (q' = p)); simpl; [reflexivity | exact IH].
Qed.

Lemma add_child_declares (p : Path) (c : Construct) (t : Tree) :
  find_node p t = None ->
  add_child p c t = inr (p, t ++ [(p, c)])
  /\ find_node p (t ++ [(p, c)]) = Some c.
Proof.
  intros H. unfold add_child. rewrite H. split; [reflexivity|].
  rewrite find_node_app_fresh, H. rewrite bool_decide_eq_true_2; reflexivity.
Qed.

Lemma add_child_duplicate (p : Path) (c c' : Construct) (t : Tree) :
  find_node p t = Some c' -> add_child p c t = inl (DuplicateConstruct p).
Proof. intros H. unfold add_child. rewrite H. reflexivity. Qed.

Lemma replace_node_length (p : Path) (c : Construct) (t : Tree) :
  length (replace_node p c t) = length t.
Proof.
  induction t as [|e t IH]; simpl; [reflexivity|].
  destruct (bool_decide (fst e = p)); simpl; congruence.
Qed.

Lemma find_replace_node (p : Path) (c : Construct) (t : Tree) :
  is_Some (find_node p t) -> find_node p (replace_node p c t) = Some c.
Proof.
  unfold find_node. induction t as [|e t IH]; simpl.
  - intros [x Hx]. discriminate.
  - destruct (bool_decide (fst e = p)) eqn:E; simpl.
    + intros _. rewrite bool_decide_eq_true_2; reflexivity.
    + rewrite E. exact IH.
Qed.

(** The grant reaches the role through the function: the statement is
    appended to the very role the function refers to. *)
Lemma grantRead_adds_to_function_role
      (secret fn rp : Path) (f : lambda.Function) (r : iam.Role) (t : Tree) :
  find_node fn t = Some (FunctionC f) ->
  lambda.role f = Some rp ->
  find_node rp t = Some (RoleC r) ->
  grantRead secret fn t =
  inr (tt, replace_node rp
             (RoleC (iam.addStatement
                       {| iam.actions := ["secretsmanager:GetSecretValue";
                                          "secretsmanager:DescribeSecret"];
                          iam.resources := [secretsmanager.secretArn secret] |}
                       r)) t).
Proof.
  intros Hf Hr Hrole.
  unfold grantRead, bind, get_function. rewrite Hf, Hr.
  unfold addToPolicy, bind, get_role. rewrite Hrole. reflexivity.
Qed.

(** ** Lemmas on and-or lists *)

Lemma exec_true (o : Shell.Outcome) : Shell.exec o "true" = true.
Proof. reflexivity. Qed.

(** Once a command has failed, the chain is skipped and [true] is run. *)
Lemma run_rest_after_failure (o : Shell.Outcome) (cs : list string) :
  Shell.run_rest o false (and_chain cs ++ or_true) = Shell.mkRun ["true"] true.
Proof.
  induction cs as [|c cs IH]; simpl.
  - reflexivity.
  - exact IH.
Qed.

Lemma run_rest_all_succeed (o : Shell.Outcome) (cs : list string) :
  forallb (Shell.exec o) cs = true ->
  Shell.run_rest o true (and_chain cs ++ or_true) = Shell.mkRun cs true.
Proof.
  induction cs as [|c cs IH]; simpl; intros H.
  - reflexivity.
  - apply andb_true_iff in H as [Hc Hcs]. rewrite Hc, (IH Hcs). reflexivity.
Qed.

Lemma run_rest_first_failure (o : Shell.Outcome) (pre post : list string) (c : string) :
  forallb (Shell.exec o) pre = true ->
  Shell.exec o c = false ->
  Shell.run_rest o true (and_chain (pre ++ c :: post) ++ or_true)
  = Shell.mkRun (pre ++ [c; "true"]) true.
Proof.
  intros Hpre Hc. induction pre as [|a pre IH]; simpl in *.
  - rewrite Hc. fold (and_chain post). rewrite run_rest_after_failure. reflexivity.
  - apply andb_true_iff in Hpre as [Ha Hpre]. rewrite Ha, (IH Hpre). reflexivity.
Qed.

(** Whatever the commands do, a chain closed by [|| true] reports success. *)
Lemma and_chain_or_true_succeeds (o : Shell.Outcome) (status : bool) (cs : list string) :
  Shell.exit_ok (Shell.run_rest o status (and_chain cs ++ or_true)) = true.
Proof.
  revert status. induction cs as [|c cs IH]; intros [|]; simpl; auto.
Qed.

(** The script, as the shell reads it. *)
Lemma parse_bundling_script :
  Shell.parse bundling_script =
  ("set -euo pipefail", and_chain (tail step_commands) ++ or_true).
Proof. vm_compute. reflexivity. Qed.

Lemma step_commands_head :
  step_commands = "set -euo pipefail" :: tail step_commands.
Proof. reflexivity. Qed.

Lemma step_commands_distinct : NoDup (step_commands ++ ["true"]).
Proof. apply (bool_decide_unpack _). vm_compute. exact I. Qed.

Lemma exec_set (o : Shell.Outcome) : Shell.exec o "set -euo pipefail" = true.
Proof. reflexivity. Qed.

Lemma run_list_exit_ok (o : Shell.Outcome) (c : string) (l : list (Shell.Connective * string)) :
  Shell.exit_ok (Shell.run_list o (c, l))
  = Shell.exit_ok (Shell.run_rest o (Shell.exec o c) l).
Proof. reflexivity. Qed.

Lemma run_list_executed (o : Shell.Outcome) (c : string) (l : list (Shell.Connective * string)) :
  Shell.executed (Shell.run_list o (c, l))
  = c :: Shell.executed (Shell.run_rest o (Shell.exec o c) l).
Proof. reflexivity. Qed.

(** The slip in the script: [|| true] closes the whole chain, so the
    script reports success whichever command fails. *)
Lemma bundling_exit_ok (o : Shell.Outcome) :
  Shell.exit_ok (Shell.bash_c o bundling_script) = true.
Proof.
  unfold Shell.bash_c. rewrite parse_bundling_script, run_list_exit_ok.
  apply and_chain_or_true_succeeds.
Qed.

(** The commands run when step [i] is the first to fail. *)
Lemma bundling_run_first_failure (o : Shell.Outcome) (i : nat) :
  first_failure o i = true ->
  Shell.executed (Shell.bash_c o bundling_script)
  = take (S i) step_commands ++ ["true"].
Proof.
  unfold first_failure, Shell.bash_c. intros H.
  rewrite parse_bundling_script, run_list_executed, exec_set.
  remember (tail step_commands) as cs eqn:Hcs.
  assert (Hsc : step_commands = "set -euo pipefail" :: cs)
    by (rewrite Hcs; apply step_commands_head).
  rewrite Hsc in H |- *. clear Hcs Hsc.
  apply andb_true_iff in H as [Hpre Hc].
  destruct i as [|k].
  { simpl in Hc. discriminate Hc. }
  rewrite lookup_cons in Hc.
  rewrite firstn_cons in Hpre. simpl in Hpre.
  destruct (cs !! k) as [c|] eqn:Ek; [|discriminate].
  apply negb_true_iff in Hc.
  rewrite <- (take_drop_middle _ _ _ Ek) at 1.
  rewrite (run_rest_first_failure o _ _ c Hpre Hc).
  rewrite firstn_cons, (take_S_r _ _ _ Ek).
  simpl. rewrite <- app_assoc. reflexivity.
Qed.

(** ** The entry point's configuration record *)

(** C1: for every process environment, each of the four fields of the
    configuration record passed to the stack constructor equals its
    environment variable when that is set and the empty string when it
    is not (so no field is ever undefined). *)
Theorem entry_props_env_or_empty (env : ProcessEnv) :
  discordWebhookUrl (entry_props env)
    = env_or_empty env "DISCORD_WEBHOOK_URL"
  /\ githubToken (entry_props env)
    = env_or_empty env "GITHUB_TOKEN"
  /\ googleWorkloadIdentityAudience (entry_props env)
    = env_or_empty env "GOOGLE_WORKLOADIDENTITY_AUDIENCE"
  /\ googleWorkloadIdentityServiceAccount (entry_props env)
    = env_or_empty env "GOOGLE_WORKLOADIDENTITY_SERVICEACCOUNT".
Proof.
  unfold entry_props, env_or_empty; cbn [discordWebhookUrl githubToken
    googleWorkloadIdentityAudience googleWorkloadIdentityServiceAccount].
  rewrite !or_else_empty. repeat split.
Qed.

(** ** The assembled resource graph *)

(** The constructor is run on the given record and the conjuncts are
    settled one after the other by evaluation. *)
Ltac settle :=
  repeat match goal with
         | |- _ /\ _ => split
         | |- _ => vm_compute; reflexivity
         end.

(** C2: for every configuration record the constructor succeeds and the
    tree holds exactly one secret, one role, one function, one function
    URL, one rule and four outputs, nine constructs in all. *)
Theorem stack_resource_counts (props : BlueprintMetricsCdkStackProps) :
  exists t : Tree,
    synth props = inr t
    /\ length (secrets t) = 1
    /\ length (roles t) = 1
    /\ length (functions t) = 1
    /\ length (function_urls t) = 1
    /\ length (rules t) = 1
    /\ length (outputs t) = 4
    /\ length t = 9.
Proof.
  destruct props as [tok hook aud acct].
  eexists. settle.
Qed.

(** C3: for every configuration record the one rule of the stack has the
    cron schedule with minute 0, hour 19 and week day MON, the other
    fields left unset; the schedule does not mention the configuration. *)
Theorem weekly_rule_schedule (props : BlueprintMetricsCdkStackProps) :
  exists (t : Tree) (r : events.Rule),
    synth props = inr t
    /\ rules t = [(["WeeklyMetricsRule"], r)]
    /\ events.schedule r =
       events.Schedule.cron
         {| events.minute := Some "0";
            events.hour := Some "19";
            events.day := None;
            events.month := None;
            events.year := None;
            events.weekDay := Some "MON" |}.
Proof.
  destruct props as [tok hook aud acct].
  do 2 eexists. settle.
Qed.

(** C4: for every configuration record the function URL declared for the
    function has authentication type NONE, allowed methods exactly
    [POST] and allowed origins exactly ["*"]. *)
Theorem function_url_options (props : BlueprintMetricsCdkStackProps) :
  exists (t : Tree) (fn : Path) (f : lambda.Function) (p : Path)
         (u : lambda.FunctionUrl),
    synth props = inr t
    /\ functions t = [(fn, f)]
    /\ function_urls t = [(p, u)]
    /\ lambda.function u = fn
    /\ lambda.authType (lambda.options u) = lambda.NONE
    /\ lambda.allowedMethods (lambda.cors (lambda.options u)) = [lambda.POST]
    /\ lambda.allowedOrigins (lambda.cors (lambda.options u)) = ["*"].
Proof.
  destruct props as [tok hook aud acct].
  do 5 eexists. settle.
Qed.

(** C5: for all configuration values the function's environment is the
    map with exactly the six entries DISCORD_WEBHOOK_URL,
    GITHUB_TOKEN, GOOGLE_WORKLOADIDENTITY_AUDIENCE,
    GOOGLE_WORKLOADIDENTITY_SERVICEACCOUNT (the four configuration
    values), METRICS_CONFIG_SECRET_ARN (the ARN of the stack's secret)
    and PROD (the constant "true"). *)
Theorem function_environment (props : BlueprintMetricsCdkStackProps) :
  exists (t : Tree) (sp : Path) (s : secretsmanager.Secret)
         (fn : Path) (f : lambda.Function),
    synth props = inr t
    /\ secrets t = [(sp, s)]
    /\ functions t = [(fn, f)]
    /\ cdk.object_literal (lambda.environment f) =
       <["DISCORD_WEBHOOK_URL" := cdk.Str (discordWebhookUrl props)]>
       (<["GITHUB_TOKEN" := cdk.Str (githubToken props)]>
       (<["GOOGLE_WORKLOADIDENTITY_AUDIENCE" :=
            cdk.Str (googleWorkloadIdentityAudience props)]>
       (<["GOOGLE_WORKLOADIDENTITY_SERVICEACCOUNT" :=
            cdk.Str (googleWorkloadIdentityServiceAccount props)]>
       (<["METRICS_CONFIG_SECRET_ARN" := secretsmanager.secretArn sp]>
       (<["PROD" := cdk.Str "true"]> ∅)))))
    /\ size (cdk.object_literal (lambda.environment f)) = 6.
Proof.
  destruct props as [tok hook aud acct].
  do 5 eexists. settle.
Qed.

(** ** The bundling script *)

(** C6, as stated, does not hold: when only the last step (pruning the
    test directories) fails, every step has run and the script still
    reports success. *)
Lemma fail_fast_refuted : ~ fail_fast.
Proof.
  intros H.
  destruct (H (fails_only_at
                 "find /asset-output -type d \( -name 'tests' -o -name 'test' \) -prune -exec rm -rf {} +")
              5 ltac:(vm_compute; reflexivity)) as [_ Hexit].
  rewrite bundling_exit_ok in Hexit. discriminate Hexit.
Qed.

(** C6, amended: when a step is the first to fail, none of the later
    steps is run (the commands run are the steps up to the failing one,
    then the closing [true]); and when that step is the last one, whose
    failure the script tolerates with [|| true], the script reports
    success. *)
Theorem failing_step_skips_rest (o : Shell.Outcome) (i : nat) :
  first_failure o i = true ->
  later_steps_skipped o i
  /\ Shell.executed (Shell.bash_c o bundling_script)
     = take (S i) step_commands ++ ["true"]
  /\ (i = last_step ->
      Shell.exit_ok (Shell.bash_c o bundling_script) = true).
Proof.
  intros H. split; [|split].
  - intros c Hc Hrun.
    rewrite (bundling_run_first_failure o i H) in Hrun.
    pose proof step_commands_distinct as Hnd.
    rewrite <- (take_drop (S i) step_commands), <- app_assoc in Hnd.
    apply NoDup_app in Hnd as (_ & Hdisj & _).
    apply elem_of_app in Hrun as [Hin | Htrue].
    + apply (Hdisj c Hin). apply elem_of_app. left. exact Hc.
    + assert (Hin : "true" ∈ take (S i) step_commands ++ drop (S i) step_commands).
      { apply elem_of_app. right.
        apply list_elem_of_singleton in Htrue. subst c. exact Hc. }
      rewrite take_drop in Hin. revert Hin.
      apply (bool_decide_unpack _). vm_compute. exact I.
  - exact (bundling_run_first_failure o i H).
  - intros _. apply bundling_exit_ok.
Qed.

Lemma failing_step_skips_rest_witness :
  first_failure
    (fails_only_at "cp -au *.py requirements.txt /asset-output") 2 = true
  /\ (later_steps_skipped
        (fails_only_at "cp -au *.py requirements.txt /asset-output") 2
      /\ Shell.executed
           (Shell.bash_c
              (fails_only_at "cp -au *.py requirements.txt /asset-output")
              bundling_script)
         = take 3 step_commands ++ ["true"]
      /\ (2 = last_step ->
          Shell.exit_ok
            (Shell.bash_c
               (fails_only_at "cp -au *.py requirements.txt /asset-output")
               bundling_script) = true)).
Proof.
  split.
  - vm_compute; reflexivity.
  - apply (failing_step_skips_rest
             (fails_only_at "cp -au *.py requirements.txt /asset-output") 2).
    vm_compute; reflexivity.
Defined.

(** ** The execution role *)

(** C7, as stated, does not hold: the role ends up with a second
    statement, the read grant on the secret. *)
Lemma role_with_single_statement_refuted :
  ~ role_with_single_statement (mkProps "" "" "" "").
Proof.
  intros (t & p & r & Ht & Hroles & _ & Hst).
  vm_compute in Ht. injection Ht as <-.
  vm_compute in Hroles. injection Hroles as _ <-.
  discriminate Hst.
Qed.

(** C7, amended: for every configuration record the execution role has
    exactly one managed policy, the AWS managed policy
    service-role/AWSLambdaBasicExecutionRole, and exactly two
    statements: the one added with [addToPolicy], allowing
    sts:GetCallerIdentity on "*", followed by the read grant that
    [grantRead] attaches to the function's role, allowing
    secretsmanager:GetSecretValue and secretsmanager:DescribeSecret on
    the ARN of the stack's secret. *)
Theorem execution_role_grants (props : BlueprintMetricsCdkStackProps) :
  exists (t : Tree) (sp : Path) (s : secretsmanager.Secret)
         (p : Path) (r : iam.Role),
    synth props = inr t
    /\ secrets t = [(sp, s)]
    /\ roles t = [(p, r)]
    /\ iam.managedPolicies r =
       [iam.AwsManagedPolicy "service-role/AWSLambdaBasicExecutionRole"]
    /\ iam.statements r =
       [ {| iam.actions := ["sts:GetCallerIdentity"];
            iam.resources := [cdk.Str "*"] |};
         {| iam.actions := ["secretsmanager:GetSecretValue";
                            "secretsmanager:DescribeSecret"];
            iam.resources := [secretsmanager.secretArn sp] |} ].
Proof.
  destruct props as [tok hook aud acct].
  do 5 eexists. settle.
Qed.

(** ** The function *)

(** C8: for every configuration record the function is declared with
    memory size 1024 and a timeout of 5 minutes. *)
Theorem function_memory_timeout (props : BlueprintMetricsCdkStackProps) :
  exists (t : Tree) (fn : Path) (f : lambda.Function),
    synth props = inr t
    /\ functions t = [(fn, f)]
    /\ lambda.memorySize f = 1024%N
    /\ lambda.timeout f = cdk.Duration.minutes 5.
Proof.
  destruct props as [tok hook aud acct].
  do 3 eexists. settle.
Qed.

(** ** The outputs *)

(** C9: for every configuration record the stack declares exactly four
    outputs; in order, their values are the name of the function, the
    name of the function's role, the ARN of the secret and the URL of
    the function URL, each as read from its construct. *)
Theorem stack_outputs (props : BlueprintMetricsCdkStackProps) :
  exists (t : Tree) (sp : Path) (s : secretsmanager.Secret)
         (rp : Path) (r : iam.Role) (fn : Path) (f : lambda.Function)
         (up : Path) (u : lambda.FunctionUrl),
    synth props = inr t
    /\ secrets t = [(sp, s)]
    /\ roles t = [(rp, r)]
    /\ functions t = [(fn, f)]
    /\ function_urls t = [(up, u)]
    /\ lambda.role f = Some rp
    /\ lambda.function u = fn
    /\ outputs t =
       [ (["LambdaFunctionName"],
          {| cdk.value := lambda.functionNameToken fn |});
         (["LambdaExecutionRoleName"],
          {| cdk.value := iam.roleNameToken rp |});
         (["MetricsConfigSecretArn"],
          {| cdk.value := secretsmanager.secretArn sp |});
         (["LambdaFunctionUrl"],
          {| cdk.value := lambda.url up |}) ].
Proof.
  destruct props as [tok hook aud acct].
  do 9 eexists. settle.
Qed.

(** The role-name expression [role?.roleName || ""] on both branches:
    the fallback is the value exactly when the role is absent. *)
Lemma role_name_or_empty (fn_role : option Path) :
  cdk.or_else (Js.opt_chain fn_role iam.roleNameToken) (cdk.Str "") =
  match fn_role with
  | Some rp => iam.roleNameToken rp
  | None => cdk.Str ""
  end.
Proof. destruct fn_role as [rp|]; reflexivity. Qed.

(** C10, as stated, does not hold: the value of the role-name output is
    not the string "bp-metrics-role" but what reading [roleName] from
    the role yields, a reference to the role. *)
Lemma role_name_output_is_literal_refuted :
  ~ role_name_output_is_literal (mkProps "" "" "" "").
Proof.
  intros (t & Ht & Hout).
  vm_compute in Ht. injection Ht as <-.
  vm_compute in Hout. discriminate Hout.
Qed.

(** C10, amended: in the assembled stack the function's role reference
    is present and denotes the execution role, the one declared with the
    name "bp-metrics-role"; reading its [roleName] yields a token, which
    is truthy, so the empty-string fallback of the role-name output is
    never taken; the value of the output is that token, the reference
    to the name of the execution role. *)
Theorem role_name_output (props : BlueprintMetricsCdkStackProps) :
  exists (t : Tree) (fn : Path) (f : lambda.Function) (rp : Path)
         (r : iam.Role),
    synth props = inr t
    /\ functions t = [(fn, f)]
    /\ lambda.role f = Some rp
    /\ function_role fn t = inr (Some rp, t)
    /\ roles t = [(rp, r)]
    /\ iam.roleName r = "bp-metrics-role"
    /\ cdk.truthy (iam.roleNameToken rp) = true
    /\ find_node ["LambdaExecutionRoleName"] t =
       Some (OutputC {| cdk.value := iam.roleNameToken rp |})
    /\ iam.roleNameToken rp <> cdk.Str "".
Proof.
  destruct props as [tok hook aud acct].
  do 5 eexists. settle.
  discriminate.
Qed.

(** ** From the environment to the function *)




(** ** Where the configuration goes *)

(** X3: the configuration values reach nothing but the function's
    environment: for any two configuration records the constructor
    builds trees that are equal once that environment is left out, so
    the secret, the role and its statements, the function URL, the rule
    and the four outputs do not depend on the configuration. *)
Theorem config_reaches_only_environment
        (props props' : BlueprintMetricsCdkStackProps) :
  exists t t' : Tree,
    synth props = inr t
    /\ synth props' = inr t'
    /\ tree_without_environment t = tree_without_environment t'
    /\ outputs t = outputs t'
    /\ roles t = roles t'.
Proof.
  destruct props as [tok hook aud acct].
  destruct props' as [tok' hook' aud' acct'].
  do 2 eexists. settle.
Qed.

(** X4: the weekly rule has exactly one target, the function of the
    stack, which is also the function the function URL invokes. *)
Theorem weekly_rule_targets_function (props : BlueprintMetricsCdkStackProps) :
  exists (t : Tree) (fn : Path) (f : lambda.Function) (r : events.Rule)
         (up : Path) (u : lambda.FunctionUrl),
    synth props = inr t
    /\ functions t = [(fn, f)]
    /\ rules t = [(["WeeklyMetricsRule"], r)]
    /\ events.targets r = [events.LambdaFunction fn]
    /\ function_urls t = [(up, u)]
    /\ lambda.function u = fn.
Proof.
  destruct props as [tok hook aud acct].
  do 6 eexists. settle.
Qed.

(** X5: the secret whose ARN the function receives in
    METRICS_CONFIG_SECRET_ARN is the one its role may read: the role the
    function runs under carries a statement allowing
    secretsmanager:GetSecretValue and secretsmanager:DescribeSecret on
    exactly that ARN. *)
Theorem function_may_read_its_secret (props : BlueprintMetricsCdkStackProps) :
  exists (t : Tree) (fn : Path) (f : lambda.Function) (rp : Path)
         (r : iam.Role) (arn : cdk.Value),
    synth props = inr t
    /\ functions t = [(fn, f)]
    /\ lambda.role f = Some rp
    /\ find_node rp t = Some (RoleC r)
    /\ cdk.object_literal (lambda.environment f) !! "METRICS_CONFIG_SECRET_ARN"
       = Some arn
    /\ In {| iam.actions := ["secretsmanager:GetSecretValue";
                             "secretsmanager:DescribeSecret"];
             iam.resources := [arn] |}
          (iam.statements r).
Proof.
  destruct props as [tok hook aud acct].
  do 6 eexists. settle.
  vm_compute. right. left. reflexivity.
Qed.

(** X8: the function is packaged for its own runtime: the bundling
    image is the one of the function's runtime, Python 3.14, the handler
    is main.handler, and the bundling command is [bash -c] applied to
    the script whose steps are joined with [&&]. *)
Theorem function_packaging (props : BlueprintMetricsCdkStackProps) :
  exists (t : Tree) (fn : Path) (f : lambda.Function),
    synth props = inr t
    /\ functions t = [(fn, f)]
    /\ lambda.runtime f = lambda.PYTHON_3_14
    /\ lambda.handler f = "main.handler"
    /\ lambda.image (lambda.bundling (lambda.code f))
       = lambda.bundlingImage (lambda.runtime f)
    /\ lambda.command (lambda.bundling (lambda.code f))
       = ["bash"; "-c"; String.concat " && " bundling_steps].
Proof.
  destruct props as [tok hook aud acct].
  do 3 eexists. settle.
Qed.

(** ** The bundling script, whatever its commands do *)

(** X6: the bundling script reports success whatever its commands do:
    the closing [|| true] applies to the whole chain, so the exit status
    is 0 also when [pip install] or any other step fails. *)
Theorem bundling_never_reports_failure (o : Shell.Outcome) :
  Shell.exit_ok (Shell.bash_c o bundling_script) = true.
Proof.
  unfold Shell.bash_c. rewrite parse_bundling_script, run_list_exit_ok.
  generalize (Shell.exec o "set -euo pipefail") as status.
  generalize (tail step_commands) as cs.
  induction cs as [|c cs IH]; intros [|]; simpl; auto.
Qed.

(** X7: when every step succeeds, the script runs the six steps in the
    order they are written, does not run the closing [true], and
    reports success. *)
Theorem bundling_all_steps_succeed (o : Shell.Outcome) :
  forallb (Shell.exec o) step_commands = true ->
  Shell.executed (Shell.bash_c o bundling_script) = step_commands
  /\ length step_commands = 6
  /\ Shell.exit_ok (Shell.bash_c o bundling_script) = true.
Proof.
  intros H. unfold Shell.bash_c.
  rewrite parse_bundling_script, run_list_executed, run_list_exit_ok, exec_set.
  assert (Hcs : forallb (Shell.exec o) (tail step_commands) = true).
  { rewrite step_commands_head in H. apply andb_true_iff in H as [_ H]. exact H. }
  rewrite (run_rest_all_succeed o (tail step_commands) Hcs).
  split; [symmetry; exact step_commands_head|].
  split; reflexivity.
Qed.

Lemma bundling_all_steps_succeed_witness :
  forallb (Shell.exec (fun _ => true)) step_commands = true
  /\ (Shell.executed (Shell.bash_c (fun _ => true) bundling_script)
      = step_commands
      /\ length step_commands = 6
      /\ Shell.exit_ok (Shell.bash_c (fun _ => true) bundling_script) = true).
Proof.
  split.
  - vm_compute; reflexivity.
  - apply (bundling_all_steps_succeed (fun _ => true)). vm_compute; reflexivity.
Defined.
